(** * AuthContext: the session synchronizer of src/store/AuthContext.tsx

    A shallow embedding of the [AuthProvider] component and the [useAuth]
    hook.  The React state cells ([user], [loading], [initializing]), the
    Firestore collection ['users'], the console and the router history are
    the fields of one [World]; every async function of the source is a
    computation in a state-and-exception monad over that world, so that
    [try]/[catch]/[finally] can be written as in the source.

    The identity provider, the failures of the document store and the clock
    are external: they are the methods of the class [Firebase], over an
    environment type the development never inspects.

    Each handler runs to completion before the next one starts: the
    interleaving of two handlers at an [await] is not part of this model. *)

From Stdlib Require Import ZArith.
From stdpp Require Import base option strings gmap fin_maps list.

Local Open Scope string_scope.

(** ** JavaScript values *)

(** The values a Firestore document field or a field of the session object
    can hold.  [JObj] stands for any non-primitive (map, array, timestamp),
    known only by its reference. *)
Inductive JsVal : Type :=
  | JUndefined
  | JNull
  | JBool (b : bool)
  | JNum (n : Z)
  | JStr (s : string)
  | JObj (ref : nat).

(** ToBoolean: [undefined], [null], [false], [0] and [''] are falsy. *)
Definition truthy (v : JsVal) : bool :=
  match v with
  | JUndefined | JNull => false
  | JBool b => b
  | JNum n => negb (n =? 0)%Z
  | JStr s => negb (String.eqb s "")
  | JObj _ => true
  end.

(** [a || b] *)
Definition js_or (a b : JsVal) : JsVal := if truthy a then a else b.

(** [a === b] *)
Definition strict_eq (a b : JsVal) : bool :=
  match a, b with
  | JUndefined, JUndefined => true
  | JNull, JNull => true
  | JBool x, JBool y => Bool.eqb x y
  | JNum x, JNum y => (x =? y)%Z
  | JStr x, JStr y => String.eqb x y
  | JObj x, JObj y => Nat.eqb x y
  | _, _ => false
  end.

(** [o.k]: reading a property that the object lacks gives [undefined]. *)
Definition prop (o : gmap string JsVal) (k : string) : JsVal :=
  default JUndefined (o !! k).

(** A [string | null] and an optional [string] parameter as values. *)
Definition nullable (s : option string) : JsVal := from_option JStr JNull s.
Definition optional (s : option string) : JsVal := from_option JStr JUndefined s.

(** ** The external services *)

(** What the provider reports about a signed-in identity
    ([User as FirebaseUser] of firebase/auth): [uid] and [email]. *)
Record FirebaseUser : Type := { uid : string; fb_email : option string }.

Inductive Error : Type :=
  | FirebaseError (code : string)
  | JsError (message : string).

(** The calls of firebase/auth, the ways a Firestore read or write can be
    rejected, and [new Date().toISOString()].  [getDoc_fault] and
    [setDoc_fault] say whether the request fails; what a successful request
    reads or writes is the collection of the [World] below. *)
Class Firebase (Env : Type) : Type := {
  createUserWithEmailAndPassword :
    string → string → Env → (Error + FirebaseUser) * Env;
  signInWithEmailAndPassword :
    string → string → Env → (Error + FirebaseUser) * Env;
  signOut : Env → (Error + unit) * Env;
  getDoc_fault : string → Env → option Error * Env;
  setDoc_fault : string → gmap string JsVal → Env → option Error * Env;
  toISOString_now : Env → string * Env
}.

(** ** The world *)

Record World (Env : Type) : Type := mkWorld {
  env : Env;
  users : gmap string (gmap string JsVal);
  user : option (gmap string JsVal);
  loading : bool;
  initializing : bool;
  console : list (string * Error);
  history : list string
}.

Arguments mkWorld {Env}.
Arguments env {Env}.
Arguments users {Env}.
Arguments user {Env}.
Arguments loading {Env}.
Arguments initializing {Env}.
Arguments console {Env}.
Arguments history {Env}.

(** The world at mount: [useState(null)], [useState(true)],
    [useState(true)]. *)
Definition mount {Env} (e : Env) (db : gmap string (gmap string JsVal))
  : World Env :=
  mkWorld e db None true true [] [].

(** ** Computations: state and exceptions *)

Definition M (Env : Type) (A : Type) : Type :=
  World Env → (Error + A) * World Env.

Global Instance M_ret {Env} : MRet (M Env) :=
  λ A a w, (inr a, w).

Global Instance M_bind {Env} : MBind (M Env) :=
  λ A B f m w,
    match m w with
    | (inl e, w') => (inl e, w')
    | (inr a, w') => f a w'
    end.

Definition throw {Env A} (e : Error) : M Env A := λ w, (inl e, w).

(** [try { body } catch (error) { handler }] *)
Definition try_catch {Env A} (body : M Env A) (handler : Error → M Env A)
  : M Env A :=
  λ w,
    match body w with
    | (inl e, w') => handler e w'
    | (inr a, w') => (inr a, w')
    end.

(** [... finally { fin }]: [fin] runs after either completion; the
    completion of the protected block stands unless [fin] itself throws. *)
Definition finally {Env A} (body : M Env A) (fin : M Env unit) : M Env A :=
  λ w,
    match body w with
    | (r, w') =>
        match fin w' with
        | (inl e, w'') => (inl e, w'')
        | (inr _, w'') => (r, w'')
        end
    end.

Section Synchronizer.
Context {Env : Type} `{FB : Firebase Env}.

Implicit Types (w : World Env) (e : Env).

(** *** State setters, console, router *)

Definition setUser (u : option (gmap string JsVal)) : M Env unit :=
  λ w, (inr (),
        mkWorld (env w) (users w) u (loading w) (initializing w)
                (console w) (history w)).

Definition setLoading (b : bool) : M Env unit :=
  λ w, (inr (),
        mkWorld (env w) (users w) (user w) b (initializing w)
                (console w) (history w)).

Definition setInitializing (b : bool) : M Env unit :=
  λ w, (inr (),
        mkWorld (env w) (users w) (user w) (loading w) b
                (console w) (history w)).

Definition console_error (label : string) (err : Error) : M Env unit :=
  λ w, (inr (),
        mkWorld (env w) (users w) (user w) (loading w) (initializing w)
                (console w ++ [(label, err)]) (history w)).

Definition navigate (path : string) : M Env unit :=
  λ w, (inr (),
        mkWorld (env w) (users w) (user w) (loading w) (initializing w)
                (console w) (history w ++ [path])).

(** *** Awaited calls *)

Definition with_env w e : World Env :=
  mkWorld e (users w) (user w) (loading w) (initializing w)
          (console w) (history w).

Definition with_users w (db : gmap string (gmap string JsVal)) : World Env :=
  mkWorld (env w) db (user w) (loading w) (initializing w)
          (console w) (history w).

(** [await f(auth, ...)] for a call of firebase/auth. *)
Definition await_auth {A} (call : Env → (Error + A) * Env) : M Env A :=
  λ w, match call (env w) with (r, e) => (r, with_env w e) end.

(** [(await getDoc(doc(db, 'users', id))).data()]: the record, or
    [undefined] (here [None]) when there is none. *)
Definition getDoc_data (id : string) : M Env (option (gmap string JsVal)) :=
  λ w,
    match getDoc_fault id (env w) with
    | (Some err, e) => (inl err, with_env w e)
    | (None, e) => (inr (users w !! id), with_env w e)
    end.

(** [await setDoc(doc(db, 'users', id), data)] *)
Definition setDoc (id : string) (data : gmap string JsVal) : M Env unit :=
  λ w,
    match setDoc_fault id data (env w) with
    | (Some err, e) => (inl err, with_env w e)
    | (None, e) => (inr (), with_users (with_env w e) (<[id := data]> (users w)))
    end.

Definition new_Date_toISOString : M Env string :=
  λ w, match toISOString_now (env w) with (s, e) => (inr s, with_env w e) end.

(** *** The session objects built by the source *)

(** The object literal of lines 47-54 and 129-136. *)
Definition user_of_record (firebaseUser : FirebaseUser)
    (userData : gmap string JsVal) : gmap string JsVal :=
  <["id" := JStr (uid firebaseUser)]>
  (<["email" := nullable (fb_email firebaseUser)]>
  (<["businessName" := prop userData "businessName"]>
  (<["website" := prop userData "website"]>
  (<["role" := js_or (prop userData "role") (JStr "user")]>
  (<["status" := js_or (prop userData "status") (JStr "active")]> ∅))))).

(** [newUser], lines 57-63. *)
Definition newUser (firebaseUser : FirebaseUser) (createdAt : string)
  : gmap string JsVal :=
  <["id" := JStr (uid firebaseUser)]>
  (<["email" := nullable (fb_email firebaseUser)]>
  (<["role" := JStr "user"]>
  (<["status" := JStr "active"]>
  (<["createdAt" := JStr createdAt]> ∅)))).

(** *** The subscription callback, lines 40-77 *)

(** The [try] block. *)
Definition reconcile (firebaseUser : option FirebaseUser) : M Env unit :=
  match firebaseUser with
  | Some fu =>
      userData ← getDoc_data (uid fu);
      match userData with
      | Some userData => setUser (Some (user_of_record fu userData))
      | None =>
          createdAt ← new_Date_toISOString;
          setDoc (uid fu) (newUser fu createdAt);;
          setUser (Some (newUser fu createdAt))
      end
  | None => setUser None
  end.

Definition onAuthStateChanged_callback (firebaseUser : option FirebaseUser)
  : M Env unit :=
  finally
    (try_catch
       (reconcile firebaseUser)
       (λ error, console_error "Error setting up user:" error;; setUser None))
    (setLoading false;; setInitializing false).

(** The provider delivers its events in order; the world after each
    callback is the world the next one starts in. *)
Definition deliver (events : list (option FirebaseUser)) w : World Env :=
  foldl (λ w ev, (onAuthStateChanged_callback ev w).2) w events.

(** *** signup, lines 82-116 *)

(** [userData], lines 88-95. *)
Definition signup_userData (firebaseUser : FirebaseUser)
    (businessName website : option string) (createdAt : string)
  : gmap string JsVal :=
  <["email" := nullable (fb_email firebaseUser)]>
  (<["businessName" := optional businessName]>
  (<["website" := optional website]>
  (<["role" := JStr "user"]>
  (<["status" := JStr "active"]>
  (<["createdAt" := JStr createdAt]> ∅))))).

(** The object passed to [setUser], lines 100-107. *)
Definition signup_user (firebaseUser : FirebaseUser)
    (businessName website : option string) : gmap string JsVal :=
  <["id" := JStr (uid firebaseUser)]>
  (<["email" := nullable (fb_email firebaseUser)]>
  (<["businessName" := optional businessName]>
  (<["website" := optional website]>
  (<["role" := JStr "user"]>
  (<["status" := JStr "active"]> ∅))))).

Definition signup (email password : string)
    (businessName website : option string) : M Env unit :=
  finally
    (try_catch
       (setLoading true;;
        firebaseUser ← await_auth (createUserWithEmailAndPassword email password);
        createdAt ← new_Date_toISOString;
        setDoc (uid firebaseUser)
               (signup_userData firebaseUser businessName website createdAt);;
        setUser (Some (signup_user firebaseUser businessName website));;
        navigate "/business")
       (λ error, console_error "Signup error:" error;; throw error))
    (setLoading false).

(** *** login, lines 118-146 *)

Definition login (email password : string) : M Env unit :=
  finally
    (try_catch
       (setLoading true;;
        firebaseUser ← await_auth (signInWithEmailAndPassword email password);
        userData ← getDoc_data (uid firebaseUser);
        match userData with
        | Some userData => setUser (Some (user_of_record firebaseUser userData))
        | None => mret ()
        end;;
        navigate "/business")
       (λ error, console_error "Login error:" error;; throw error))
    (setLoading false).

(** *** logout, lines 148-160 *)

Definition logout : M Env unit :=
  finally
    (try_catch
       (setLoading true;;
        await_auth signOut;;
        setUser None;;
        navigate "/")
       (λ error, console_error "Logout error:" error;; throw error))
    (setLoading false).

(** *** isAdmin, lines 162-164: [user?.role === 'admin'] *)

Definition isAdmin w : bool :=
  strict_eq (from_option (λ u, prop u "role") JUndefined (user w))
            (JStr "admin").

(** *** What the component renders, lines 166-179 *)

Record AuthContextType : Type := {
  ctx_user : option (gmap string JsVal);
  ctx_loading : bool;
  ctx_login : string → string → M Env unit;
  ctx_signup : string → string → option string → option string → M Env unit;
  ctx_logout : M Env unit;
  ctx_isAdmin : unit → bool
}.

Inductive Rendered : Type :=
  | Spinner
  | Provider (value : AuthContextType).

Definition AuthProvider w : Rendered :=
  if initializing w then Spinner
  else Provider {| ctx_user := user w; ctx_loading := loading w;
                   ctx_login := login; ctx_signup := signup;
                   ctx_logout := logout; ctx_isAdmin := λ _, isAdmin w |}.

(** *** useAuth, lines 182-188 *)

(** [useContext(AuthContext)] in a component whose enclosing
    [AuthContext.Provider] elements carry the values [scope], nearest
    first: the nearest value, or the default given to [createContext],
    which is [undefined] (line 31). *)
Definition useContext_AuthContext (scope : list (option AuthContextType))
  : option AuthContextType :=
  match scope with
  | value :: _ => value
  | [] => None
  end.

Definition useAuth (scope : list (option AuthContextType))
  : Error + AuthContextType :=
  match useContext_AuthContext scope with
  | None => inl (JsError "useAuth must be used within an AuthProvider")
  | Some context => inr context
  end.

(** The identity a session carries: [user?.id]. *)
Definition identity (session : option (gmap string JsVal)) : JsVal :=
  from_option (λ u, prop u "id") JUndefined session.

(** *** The two ways the [try] block of the callback can throw *)

(** The fetch of the record of [fu] is rejected with [err]. *)
Definition fetch_fails (fu : FirebaseUser) w (err : Error) : Prop :=
  ∃ e1, getDoc_fault (uid fu) (env w) = (Some err, e1).

(** The fetch finds no record and the write of the default record is
    rejected with [err]. *)
Definition write_fails (fu : FirebaseUser) w (err : Error) : Prop :=
  ∃ e1 t e2 e3,
    getDoc_fault (uid fu) (env w) = (None, e1)
    ∧ users w !! uid fu = None
    ∧ toISOString_now e1 = (t, e2)
    ∧ setDoc_fault (uid fu) (newUser fu t) e2 = (Some err, e3).

End Synchronizer.

(** ** A concrete environment

    A provider that accepts one account and a store whose reads and writes
    can be switched off, used to run the handlers on explicit inputs. *)
Module Mock.

Record Env : Type := {
  account : FirebaseUser;
  secret : string;
  auth_up : bool;
  reads_up : bool;
  writes_up : bool;
  clock : string
}.

Definition signIn (email password : string) (e : Env)
  : (Error + FirebaseUser) * Env :=
  if auth_up e then
    if bool_decide (fb_email (account e) = Some email)
       && String.eqb password (secret e)
    then (inr (account e), e)
    else (inl (FirebaseError "auth/invalid-credential"), e)
  else (inl (FirebaseError "auth/network-request-failed"), e).

Definition createUser (email password : string) (e : Env)
  : (Error + FirebaseUser) * Env :=
  if auth_up e then
    if bool_decide (fb_email (account e) = Some email)
    then (inl (FirebaseError "auth/email-already-in-use"), e)
    else (inr {| uid := "u2"; fb_email := Some email |}, e)
  else (inl (FirebaseError "auth/network-request-failed"), e).

Global Instance firebase : Firebase Env := {|
  createUserWithEmailAndPassword := createUser;
  signInWithEmailAndPassword := signIn;
  signOut e :=
    if auth_up e then (inr (), e)
    else (inl (FirebaseError "auth/network-request-failed"), e);
  getDoc_fault _ e :=
    (if reads_up e then None else Some (FirebaseError "unavailable"), e);
  setDoc_fault _ _ e :=
    (if writes_up e then None else Some (FirebaseError "permission-denied"), e);
  toISOString_now e := (clock e, e)
|}.

Definition alice : FirebaseUser :=
  {| uid := "u1"; fb_email := Some "a@b.com" |}.

Definition online : Env :=
  {| account := alice; secret := "hunter2"; auth_up := true;
     reads_up := true; writes_up := true;
     clock := "2024-01-01T00:00:00.000Z" |}.

Definition reads_down : Env :=
  {| account := alice; secret := "hunter2"; auth_up := true;
     reads_up := false; writes_up := true;
     clock := "2024-01-01T00:00:00.000Z" |}.

Definition writes_down : Env :=
  {| account := alice; secret := "hunter2"; auth_up := true;
     reads_up := true; writes_up := false;
     clock := "2024-01-01T00:00:00.000Z" |}.

Definition auth_down : Env :=
  {| account := alice; secret := "hunter2"; auth_up := false;
     reads_up := true; writes_up := true;
     clock := "2024-01-01T00:00:00.000Z" |}.

(** A stored profile that lacks [role] and [status]. *)
Definition partial_record : gmap string JsVal :=
  <["businessName" := JStr "Acme"]> ∅.

Definition admin_record : gmap string JsVal :=
  <["businessName" := JStr "Acme"]>
  (<["role" := JStr "admin"]>
  (<["status" := JStr "active"]> ∅)).

(** The world after the provider has reported an administrator. *)
Definition admin_signed_in : World Env :=
  deliver [Some alice] (mount online (<["u1" := admin_record]> ∅)).

(** The same world when the provider has become unreachable. *)
Definition admin_signed_in_offline : World Env :=
  mkWorld auth_down (users admin_signed_in) (user admin_signed_in)
          false false [] [].

(** What [AuthProvider] provides in the world [admin_signed_in]. *)
Definition admin_context : AuthContextType (Env := Env) :=
  {| ctx_user := user admin_signed_in; ctx_loading := false;
     ctx_login := login; ctx_signup := signup; ctx_logout := logout;
     ctx_isAdmin := λ _, isAdmin admin_signed_in |}.

End Mock.

(** ** Sequences of handler invocations *)

(** What can happen to a mounted [AuthProvider]: the provider delivers a
    state change to the subscription callback (line 40), or a consumer calls
    one of the three operations of the context value (line 176). *)
Inductive Action : Type :=
  | AuthStateChanged (firebaseUser : option FirebaseUser)
  | Signup (email password : string) (businessName website : option string)
  | Login (email password : string)
  | Logout.

Section Handlers.
Context {Env : Type} `{FB : Firebase Env}.

Definition handler (a : Action) : M Env unit :=
  match a with
  | AuthStateChanged firebaseUser => onAuthStateChanged_callback firebaseUser
  | Signup email password businessName website =>
      signup email password businessName website
  | Login email password => login email password
  | Logout => logout
  end.

(** The world once the promise of the handler has settled. *)
Definition perform (a : Action) (w : World Env) : World Env := (handler a w).2.

Definition perform_all (actions : list Action) (w : World Env) : World Env :=
  foldl (λ w a, perform a w) w actions.

Definition is_auth_event (a : Action) : bool :=
  match a with
  | AuthStateChanged _ => true
  | _ => false
  end.

(** The session, if any, has a string [id] under which the store holds a
    record, and its [role] and [status] are truthy. *)
Definition session_backed (w : World Env) : Prop :=
  ∀ u, user w = Some u →
    ∃ id, prop u "id" = JStr id
          ∧ is_Some (users w !! id)
          ∧ truthy (prop u "role") = true
          ∧ truthy (prop u "status") = true.

(** [isAdmin] holds only over a stored record: the store holds, under the
    identity of the session, a record whose [role] is the string admin. *)
Definition admin_backed (w : World Env) : Prop :=
  isAdmin w = true →
  ∃ id record,
    identity (user w) = JStr id
    ∧ users w !! id = Some record
    ∧ record !! "role" = Some (JStr "admin").

End Handlers.

(** ** A store that refuses undefined fields

    A second concrete environment: the provider creates the identity u2
    for any email, and the store rejects a document that holds an
    [undefined] field, as Firestore does unless told to ignore them. *)
Module Strict.

Record Env : Type := { clock : string }.

Definition is_undefined (v : JsVal) : bool :=
  match v with
  | JUndefined => true
  | _ => false
  end.

Definition storable (data : gmap string JsVal) : bool :=
  forallb (λ kv, negb (is_undefined kv.2)) (map_to_list data).

Global Instance firebase : Firebase Env := {|
  createUserWithEmailAndPassword email _ e :=
    (inr {| uid := "u2"; fb_email := Some email |}, e);
  signInWithEmailAndPassword _ _ e :=
    (inl (FirebaseError "auth/invalid-credential"), e);
  signOut e := (inr (), e);
  getDoc_fault _ e := (None, e);
  setDoc_fault _ data e :=
    (if storable data then None else Some (FirebaseError "invalid-argument"), e);
  toISOString_now e := (clock e, e)
|}.

Definition bob : FirebaseUser :=
  {| uid := "u2"; fb_email := Some "c@d.com" |}.

Definition noon : Env := {| clock := "2024-01-01T12:00:00.000Z" |}.

End Strict.

(** ** Properties *)

Section Properties.
Context {Env : Type} `{FB : Firebase Env}.

Implicit Types (w : World Env) (fu : FirebaseUser).

Ltac red_world :=
  cbn [env users user loading initializing console history fst snd] in *.

Ltac run :=
  unfold onAuthStateChanged_callback, reconcile, signup, login, logout,
    finally, try_catch, throw, await_auth, getDoc_data, setDoc,
    new_Date_toISOString, setUser, setLoading, setInitializing,
    console_error, navigate, mbind, M_bind, mret, M_ret,
    with_env, with_users in *;
  cbn [env users user loading initializing console history fst snd] in *.

Ltac cases :=
  repeat (match goal with
          | |- context [match ?x with _ => _ end] => destruct x eqn:?
          | H : context [match ?x with _ => _ end] |- _ => destruct x eqn:?
          end;
          cbn [env users user loading initializing console history fst snd] in *;
          simplify_eq).

Lemma reconcile_absent w :
  reconcile None w = setUser None w.
Proof. reflexivity. Qed.

Lemma reconcile_throws_iff fu w err :
  (reconcile (Some fu) w).1 = inl err ↔ fetch_fails fu w err ∨ write_fails fu w err.
Proof.
  unfold fetch_fails, write_fails. split.
  - run. cases; intros; simplify_eq; eauto 10.
  - intros [[e1 H]|(e1 & t & e2 & e3 & H1 & H2 & H3 & H4)]; run.
    + rewrite H. reflexivity.
    + rewrite H1; red_world. rewrite H2; red_world. rewrite H3; red_world.
      rewrite H4. reflexivity.
Qed.

Lemma callback_never_throws ev w :
  (onAuthStateChanged_callback ev w).1 = inr ().
Proof. destruct ev; run; cases; try reflexivity; by destruct u. Qed.

Lemma callback_clears_flags ev w :
  loading (onAuthStateChanged_callback ev w).2 = false
  ∧ initializing (onAuthStateChanged_callback ev w).2 = false.
Proof. destruct ev; run; cases; done. Qed.

Lemma callback_on_throw ev w err :
  (reconcile ev w).1 = inl err →
  user (onAuthStateChanged_callback ev w).2 = None
  ∧ console (onAuthStateChanged_callback ev w).2
    = (console (reconcile ev w).2 ++ [("Error setting up user:", err)])%list.
Proof.
  unfold onAuthStateChanged_callback, finally, try_catch.
  destruct (reconcile ev w) as [[e|[]] w1]; cbn; [|done].
  intros [= ->]. done.
Qed.

Lemma reconcile_console ev w :
  console (reconcile ev w).2 = console w.
Proof. destruct ev; run; cases; done. Qed.

Lemma callback_on_success ev w :
  (reconcile ev w).1 = inr () →
  user (onAuthStateChanged_callback ev w).2 = user (reconcile ev w).2.
Proof.
  unfold onAuthStateChanged_callback, finally, try_catch.
  destruct (reconcile ev w) as [[e|[]] w1]; cbn; done.
Qed.

Lemma reconcile_success_identity fu w :
  (reconcile (Some fu) w).1 = inr () →
  identity (user (reconcile (Some fu) w).2) = JStr (uid fu).
Proof. run. cases; intros; simplify_eq; reflexivity. Qed.

Lemma deliver_snoc events ev w :
  deliver (events ++ [ev]) w
  = (onAuthStateChanged_callback ev (deliver events w)).2.
Proof. unfold deliver. by rewrite foldl_snoc. Qed.

Lemma newUser_fields fu t :
  prop (newUser fu t) "id" = JStr (uid fu)
  ∧ prop (newUser fu t) "email" = nullable (fb_email fu)
  ∧ prop (newUser fu t) "role" = JStr "user"
  ∧ prop (newUser fu t) "status" = JStr "active"
  ∧ prop (newUser fu t) "createdAt" = JStr t.
Proof. unfold prop, newUser. by simplify_map_eq. Qed.

Lemma user_of_record_fields fu userData :
  prop (user_of_record fu userData) "id" = JStr (uid fu)
  ∧ prop (user_of_record fu userData) "email" = nullable (fb_email fu)
  ∧ prop (user_of_record fu userData) "businessName" = prop userData "businessName"
  ∧ prop (user_of_record fu userData) "website" = prop userData "website"
  ∧ prop (user_of_record fu userData) "role"
    = js_or (prop userData "role") (JStr "user")
  ∧ prop (user_of_record fu userData) "status"
    = js_or (prop userData "status") (JStr "active").
Proof.
  unfold user_of_record.
  generalize (prop userData "businessName") (prop userData "website")
    (js_or (prop userData "role") (JStr "user"))
    (js_or (prop userData "status") (JStr "active")).
  intros. unfold prop. by simplify_map_eq.
Qed.

Lemma signup_userData_fields fu businessName website t :
  prop (signup_userData fu businessName website t) "businessName"
    = optional businessName
  ∧ prop (signup_userData fu businessName website t) "website"
    = optional website
  ∧ prop (signup_userData fu businessName website t) "role" = JStr "user"
  ∧ prop (signup_userData fu businessName website t) "status" = JStr "active".
Proof. unfold prop, signup_userData. by simplify_map_eq. Qed.

(** *** The subscription callback *)

(** C1, as amended: after the callback for the last event of any sequence
    of provider events has completed, the session is absent when that
    event reported no identity; when it reported the identity [uid fu],
    the session carries that identity if the [try] block of the callback
    completed, which it does when neither the fetch nor the write of a
    default record is rejected; and the session is absent if the block
    threw, which it does exactly when one of the two is rejected. *)
Theorem deliver_session_follows_last_event
    (events : list (option FirebaseUser)) (ev : option FirebaseUser) w :
  let w1 := deliver events w in
  let w2 := deliver (events ++ [ev]) w in
  match ev with
  | None => user w2 = None
  | Some fu =>
      match (reconcile (Some fu) w1).1 with
      | inr _ =>
          identity (user w2) = JStr (uid fu)
          ∧ ∀ err, ¬ (fetch_fails fu w1 err ∨ write_fails fu w1 err)
      | inl err =>
          user w2 = None
          ∧ (fetch_fails fu w1 err ∨ write_fails fu w1 err)
      end
  end.
Proof.
  cbv zeta. rewrite deliver_snoc. destruct ev as [fu|].
  - destruct (reconcile (Some fu) (deliver events w)).1 as [err|[]] eqn:Hr.
    + split; [|by apply reconcile_throws_iff].
      by apply callback_on_throw in Hr as [-> _].
    + split.
      * rewrite callback_on_success by done.
        by apply reconcile_success_identity.
      * intros err Hf. apply reconcile_throws_iff in Hf. congruence.
  - by rewrite callback_on_success.
Qed.

(** C2, as amended: when the callback receives the identity [uid fu] and
    the fetch finds no record, it builds a default record with role user,
    status active, the creation time and the email the provider reports,
    and asks the store to write it under [uid fu]; when the store accepts
    the write, the store holds that record under [uid fu] and the session
    is that same record; when the store rejects it, nothing is written and
    the session is absent. *)
Theorem callback_creates_missing_record fu w (e1 e2 : Env) (t : string) :
  getDoc_fault (uid fu) (env w) = (None, e1) →
  users w !! uid fu = None →
  toISOString_now e1 = (t, e2) →
  let record := newUser fu t in
  let w' := (onAuthStateChanged_callback (Some fu) w).2 in
  prop record "role" = JStr "user"
  ∧ prop record "status" = JStr "active"
  ∧ prop record "createdAt" = JStr t
  ∧ prop record "email" = nullable (fb_email fu)
  ∧ match (setDoc_fault (uid fu) record e2).1 with
    | None => users w' !! uid fu = Some record ∧ user w' = Some record
    | Some _ => users w' = users w ∧ user w' = None
    end.
Proof.
  intros H1 H2 H3 record w'.
  destruct (newUser_fields fu t) as (_ & ? & ? & ? & ?).
  repeat split; try done.
  subst w' record. run.
  rewrite H1; red_world. rewrite H2; red_world. rewrite H3; red_world.
  destruct (setDoc_fault _ _ _) as [[err|] e3]; red_world.
  - done.
  - by rewrite lookup_insert_eq.
Qed.

(** C5: the callback never throws and always leaves [loading] and
    [initializing] false, so the events that follow are processed as
    before; and when the fetch or the write it awaits is rejected with
    [err], the session is absent afterwards and [err] has been written to
    the console. *)
Theorem callback_contains_failures :
  (∀ ev w,
      (onAuthStateChanged_callback ev w).1 = inr ()
      ∧ loading (onAuthStateChanged_callback ev w).2 = false
      ∧ initializing (onAuthStateChanged_callback ev w).2 = false
      ∧ ∀ later, deliver (ev :: later) w
                 = deliver later (onAuthStateChanged_callback ev w).2)
  ∧ (∀ fu w err,
      fetch_fails fu w err ∨ write_fails fu w err →
      user (onAuthStateChanged_callback (Some fu) w).2 = None
      ∧ console (onAuthStateChanged_callback (Some fu) w).2
        = (console w ++ [("Error setting up user:", err)])%list).
Proof.
  split.
  - intros ev w. split; [apply callback_never_throws|].
    destruct (callback_clears_flags ev w). done.
  - intros fu w err Hf. apply reconcile_throws_iff in Hf.
    apply callback_on_throw in Hf. by rewrite reconcile_console in Hf.
Qed.

(** C6: when the callback receives the identity [uid fu] and the fetch
    returns the record [userData], the session has the identity and the
    email of the provider and the business name and website of the
    record; its role and status are those of the record, or user and
    active when the record lacks them (or holds a falsy value). *)
Theorem callback_adopts_existing_record fu w (e1 : Env)
    (userData : gmap string JsVal) :
  getDoc_fault (uid fu) (env w) = (None, e1) →
  users w !! uid fu = Some userData →
  ∃ session,
    user (onAuthStateChanged_callback (Some fu) w).2 = Some session
    ∧ prop session "id" = JStr (uid fu)
    ∧ prop session "email" = nullable (fb_email fu)
    ∧ prop session "businessName" = prop userData "businessName"
    ∧ prop session "website" = prop userData "website"
    ∧ prop session "role"
      = (if truthy (prop userData "role") then prop userData "role"
         else JStr "user")
    ∧ prop session "status"
      = (if truthy (prop userData "status") then prop userData "status"
         else JStr "active")
    ∧ (userData !! "role" = None → prop session "role" = JStr "user")
    ∧ (userData !! "status" = None → prop session "status" = JStr "active").
Proof.
  intros H1 H2. exists (user_of_record fu userData).
  destruct (user_of_record_fields fu userData) as (? & ? & ? & ? & Hr & Hs).
  split.
  { run. rewrite H1; red_world. by rewrite H2. }
  repeat split; try done.
  - rewrite Hr. unfold prop. by intros ->.
  - rewrite Hs. unfold prop. by intros ->.
Qed.

(** *** signup and login *)

(** C3: whenever [signup email password businessName website] resolves,
    the provider created an identity [fu] and the store holds under
    [uid fu] a record whose business name and website are the arguments,
    whose role is user and whose status is active; a read of that key
    that is not rejected returns this record. *)
Theorem signup_round_trip (email password : string)
    (businessName website : option string) w w' :
  signup email password businessName website w = (inr (), w') →
  ∃ fu record,
    (createUserWithEmailAndPassword email password (env w)).1 = inr fu
    ∧ users w' !! uid fu = Some record
    ∧ prop record "businessName" = optional businessName
    ∧ prop record "website" = optional website
    ∧ prop record "role" = JStr "user"
    ∧ prop record "status" = JStr "active"
    ∧ ∀ e, getDoc_fault (uid fu) (env w') = (None, e) →
           (getDoc_data (uid fu) w').1 = inr (Some record).
Proof.
  intros H. run.
  destruct (createUserWithEmailAndPassword _ _ _) as [[err|fu] e1] eqn:Hc;
    red_world; [done|].
  destruct (toISOString_now e1) as [t e2]; red_world.
  destruct (setDoc_fault _ _ _) as [[err|] e3]; red_world; [done|].
  injection H as <-. red_world.
  exists fu, (signup_userData fu businessName website t).
  destruct (signup_userData_fields fu businessName website t)
    as (? & ? & ? & ?).
  rewrite lookup_insert_eq. repeat split; try done.
  intros e ->. by red_world.
Qed.

(** C4: when the provider rejects the credential call of [signup] or of
    [login] with [err], the operation rejects with [err], the session is
    the one from before the call and [loading] is false. *)
Theorem provider_rejection_propagates (email password : string)
    (businessName website : option string) w (err : Error) :
  ((createUserWithEmailAndPassword email password (env w)).1 = inl err →
     (signup email password businessName website w).1 = inl err
     ∧ user (signup email password businessName website w).2 = user w
     ∧ loading (signup email password businessName website w).2 = false)
  ∧ ((signInWithEmailAndPassword email password (env w)).1 = inl err →
     (login email password w).1 = inl err
     ∧ user (login email password w).2 = user w
     ∧ loading (login email password w).2 = false).
Proof.
  split; intros H; run.
  - destruct (createUserWithEmailAndPassword _ _ _) as [[err'|fu] e1];
      red_world; by simplify_eq/=.
  - destruct (signInWithEmailAndPassword _ _ _) as [[err'|fu] e1];
      red_world; by simplify_eq/=.
Qed.

(** C7: when the provider accepts the credentials of [login] and the
    fetch finds no record for the identity, [login] resolves, the session
    is the one from before the call and the store is unchanged: no record
    is created. *)
Theorem login_missing_record_keeps_session (email password : string) w
    fu (e1 e2 : Env) :
  signInWithEmailAndPassword email password (env w) = (inr fu, e1) →
  getDoc_fault (uid fu) e1 = (None, e2) →
  users w !! uid fu = None →
  (login email password w).1 = inr ()
  ∧ user (login email password w).2 = user w
  ∧ users (login email password w).2 = users w
  ∧ users (login email password w).2 !! uid fu = None.
Proof.
  intros H1 H2 H3. run.
  rewrite H1; red_world. rewrite H2; red_world. rewrite H3; red_world.
  done.
Qed.

(** *** logout and isAdmin *)

(** C8: whatever the session is, a [logout] whose [signOut] call
    succeeds resolves with the session absent, and [isAdmin] is then
    false. *)
Theorem logout_clears_session w (e1 : Env) :
  signOut (env w) = (inr (), e1) →
  (logout w).1 = inr ()
  ∧ user (logout w).2 = None
  ∧ isAdmin (logout w).2 = false.
Proof. intros H. unfold isAdmin. run. rewrite H; red_world. done. Qed.

(** C10: when the [signOut] call of [logout] is rejected with [err],
    [logout] rejects with [err]; the session, the store, the history and
    [initializing] are those from before the call, [loading] is false and
    the error has been written to the console. *)
Theorem logout_failure_keeps_session w (err : Error) (e1 : Env) :
  signOut (env w) = (inl err, e1) →
  (logout w).1 = inl err
  ∧ user (logout w).2 = user w
  ∧ loading (logout w).2 = false
  ∧ initializing (logout w).2 = initializing w
  ∧ users (logout w).2 = users w
  ∧ history (logout w).2 = history w
  ∧ console (logout w).2 = (console w ++ [("Logout error:", err)])%list.
Proof. intros H. run. rewrite H; red_world. done. Qed.

(** *** useAuth *)

(** C9: with no enclosing provider, [useAuth] throws the error
    'useAuth must be used within an AuthProvider'; and whenever it returns
    a value, that value is the one given by the nearest enclosing
    provider, never a default. *)
Theorem useAuth_outside_provider_throws :
  useAuth (Env := Env) []
  = inl (JsError "useAuth must be used within an AuthProvider")
  ∧ (∀ (scope : list (option (AuthContextType (Env := Env)))) value,
      useAuth scope = inr value → ∃ outer, scope = Some value :: outer)
  ∧ (∀ w value outer,
      AuthProvider w = Provider value →
      useAuth (Some value :: outer) = inr value).
Proof.
  split; [reflexivity|]. split.
  - intros [|[v|] outer] value; cbn; intros [=]; subst; eauto.
  - reflexivity.
Qed.

End Properties.

(** ** Runs on the concrete environment *)

Example mock_first_event :
  identity (user (deliver [Some Mock.alice] (mount Mock.online ∅)))
  = JStr "u1".
Proof. vm_compute. reflexivity. Qed.

(** C1, as stated, fails: the provider reports the identity u1, the fetch
    is rejected, and the session is absent once the callback has
    completed. *)
Lemma deliver_rejected_fetch_session_absent :
  let w2 := deliver ([] ++ [Some Mock.alice]) (mount Mock.reads_down ∅) in
  user w2 = None
  ∧ ¬ (identity (user w2) = JStr (uid Mock.alice)).
Proof. vm_compute. split; [reflexivity | discriminate]. Qed.

(** C2, as stated, fails: the fetch finds no record for u1, the write of
    the default record is rejected, nothing is stored under u1 and no
    session built from the record is published. *)
Lemma callback_rejected_write_publishes_nothing :
  let w := mount Mock.writes_down ∅ in
  let w' := (onAuthStateChanged_callback (Some Mock.alice) w).2 in
  (getDoc_data (uid Mock.alice) w).1 = inr None
  ∧ users w' !! uid Mock.alice = None
  ∧ user w' = None
  ∧ ¬ (users w' !! uid Mock.alice = Some (newUser Mock.alice (Mock.clock Mock.writes_down))
       ∧ user w' = Some (newUser Mock.alice (Mock.clock Mock.writes_down))).
Proof.
  intros w w'.
  assert (Hnone : users w' !! uid Mock.alice = None) by (vm_compute; reflexivity).
  split; [vm_compute; reflexivity|]. split; [exact Hnone|].
  split; [vm_compute; reflexivity|].
  intros [H _]. rewrite Hnone in H. discriminate H.
Qed.

Lemma callback_creates_missing_record_witness :
  let w := mount Mock.online ∅ in
  let w' := (onAuthStateChanged_callback (Some Mock.alice) w).2 in
  let record := newUser Mock.alice "2024-01-01T00:00:00.000Z" in
  users w !! "u1" = None
  ∧ users w' !! "u1" = Some record
  ∧ user w' = Some record.
Proof.
  split; [reflexivity|].
  pose proof (callback_creates_missing_record Mock.alice
                (mount Mock.online ∅) Mock.online Mock.online
                "2024-01-01T00:00:00.000Z" eq_refl eq_refl eq_refl) as H.
  destruct H as (_ & _ & _ & _ & H). exact H.
Defined.

Lemma callback_contains_failures_witness :
  let w := mount Mock.reads_down ∅ in
  let w' := (onAuthStateChanged_callback (Some Mock.alice) w).2 in
  fetch_fails Mock.alice w (FirebaseError "unavailable")
  ∧ user w' = None
  ∧ console w' = [("Error setting up user:", FirebaseError "unavailable")].
Proof.
  assert (Hf : fetch_fails Mock.alice (mount Mock.reads_down ∅)
                 (FirebaseError "unavailable")).
  { exists Mock.reads_down. reflexivity. }
  split; [exact Hf|].
  destruct (callback_contains_failures (Env := Mock.Env)) as [_ H].
  exact (H Mock.alice (mount Mock.reads_down ∅) (FirebaseError "unavailable")
           (or_introl Hf)).
Defined.

Lemma callback_adopts_existing_record_witness :
  let w := mount Mock.online (<["u1" := Mock.partial_record]> ∅) in
  users w !! "u1" = Some Mock.partial_record
  ∧ ∃ session,
      user (onAuthStateChanged_callback (Some Mock.alice) w).2 = Some session
      ∧ prop session "businessName" = JStr "Acme"
      ∧ prop session "role" = JStr "user"
      ∧ prop session "status" = JStr "active".
Proof.
  split; [reflexivity|].
  pose proof (callback_adopts_existing_record Mock.alice
                (mount Mock.online (<["u1" := Mock.partial_record]> ∅))
                Mock.online Mock.partial_record eq_refl eq_refl) as H.
  destruct H
    as (session & Hu & _ & _ & Hb & _ & _ & _ & Hr & Hs).
  exists session. split; [exact Hu|]. split; [exact Hb|].
  split; [apply Hr|apply Hs]; reflexivity.
Defined.

Lemma signup_round_trip_witness :
  let w := mount Mock.online ∅ in
  let r := signup "c@d.com" "pw123456" (Some "Acme") (Some "https://acme.example") w in
  r.1 = inr ()
  ∧ ∃ record,
      users r.2 !! "u2" = Some record
      ∧ prop record "businessName" = JStr "Acme"
      ∧ prop record "website" = JStr "https://acme.example"
      ∧ prop record "role" = JStr "user"
      ∧ prop record "status" = JStr "active".
Proof.
  split; [reflexivity|].
  pose proof (signup_round_trip "c@d.com" "pw123456" (Some "Acme")
                (Some "https://acme.example") (mount Mock.online ∅)
                (signup "c@d.com" "pw123456" (Some "Acme")
                   (Some "https://acme.example") (mount Mock.online ∅)).2
                eq_refl) as H.
  destruct H
    as (fu & record & Hc & Hl & Hb & Hw & Hr & Hs & _).
  injection Hc as <-. exists record. repeat split; assumption.
Defined.

Lemma provider_rejection_propagates_witness :
  let w := mount Mock.online ∅ in
  (signInWithEmailAndPassword "a@b.com" "wrong" (env w)).1
  = inl (FirebaseError "auth/invalid-credential")
  ∧ (login "a@b.com" "wrong" w).1 = inl (FirebaseError "auth/invalid-credential")
  ∧ user (login "a@b.com" "wrong" w).2 = None
  ∧ loading (login "a@b.com" "wrong" w).2 = false
  ∧ (signup "a@b.com" "pw123456" None None w).1
    = inl (FirebaseError "auth/email-already-in-use")
  ∧ user (signup "a@b.com" "pw123456" None None w).2 = None
  ∧ loading (signup "a@b.com" "pw123456" None None w).2 = false.
Proof.
  split; [reflexivity|].
  destruct (provider_rejection_propagates "a@b.com" "wrong" None None
              (mount Mock.online ∅) (FirebaseError "auth/invalid-credential"))
    as [_ Hl].
  destruct (provider_rejection_propagates "a@b.com" "pw123456" None None
              (mount Mock.online ∅) (FirebaseError "auth/email-already-in-use"))
    as [Hs _].
  destruct (Hl eq_refl) as (? & ? & ?).
  destruct (Hs eq_refl) as (? & ? & ?).
  repeat split; assumption.
Defined.

Lemma login_missing_record_keeps_session_witness :
  let w := mount Mock.online ∅ in
  users w !! "u1" = None
  ∧ (login "a@b.com" "hunter2" w).1 = inr ()
  ∧ user (login "a@b.com" "hunter2" w).2 = None
  ∧ users (login "a@b.com" "hunter2" w).2 = ∅.
Proof.
  split; [reflexivity|].
  pose proof (login_missing_record_keeps_session "a@b.com" "hunter2"
                (mount Mock.online ∅) Mock.alice Mock.online Mock.online
                eq_refl eq_refl eq_refl) as H.
  destruct H as (? & ? & ? & _).
  repeat split; assumption.
Defined.

Lemma logout_clears_session_witness :
  isAdmin Mock.admin_signed_in = true
  ∧ identity (user Mock.admin_signed_in) = JStr "u1"
  ∧ (logout Mock.admin_signed_in).1 = inr ()
  ∧ user (logout Mock.admin_signed_in).2 = None
  ∧ isAdmin (logout Mock.admin_signed_in).2 = false.
Proof.
  split; [reflexivity|]. split; [reflexivity|].
  exact (logout_clears_session Mock.admin_signed_in Mock.online eq_refl).
Defined.

Lemma logout_failure_keeps_session_witness :
  (logout Mock.admin_signed_in_offline).1
  = inl (FirebaseError "auth/network-request-failed")
  ∧ user (logout Mock.admin_signed_in_offline).2 = user Mock.admin_signed_in
  ∧ identity (user (logout Mock.admin_signed_in_offline).2) = JStr "u1"
  ∧ loading (logout Mock.admin_signed_in_offline).2 = false.
Proof.
  pose proof (logout_failure_keeps_session Mock.admin_signed_in_offline
                (FirebaseError "auth/network-request-failed") Mock.auth_down
                eq_refl) as H.
  destruct H as (? & Hu & ? & _).
  split; [assumption|]. split; [exact Hu|]. split; [|assumption].
  rewrite Hu. reflexivity.
Defined.

Lemma useAuth_outside_provider_throws_witness :
  AuthProvider Mock.admin_signed_in = Provider Mock.admin_context
  ∧ useAuth [Some Mock.admin_context] = inr Mock.admin_context
  ∧ ctx_isAdmin Mock.admin_context () = true.
Proof.
  assert (H : AuthProvider Mock.admin_signed_in = Provider Mock.admin_context)
    by reflexivity.
  split; [exact H|].
  destruct (useAuth_outside_provider_throws (Env := Mock.Env)) as (_ & _ & Hin).
  split; [exact (Hin Mock.admin_signed_in Mock.admin_context [] H)|reflexivity].
Defined.

(** ** Further properties of the handlers *)

Section Handlers_properties.
Context {Env : Type} `{FB : Firebase Env}.

Implicit Types (w : World Env) (fu : FirebaseUser).

Ltac red_world :=
  cbn [env users user loading initializing console history fst snd] in *.

Ltac exec :=
  unfold perform, handler, onAuthStateChanged_callback, reconcile, signup,
    login, logout, finally, try_catch, throw, await_auth, getDoc_data, setDoc,
    new_Date_toISOString, setUser, setLoading, setInitializing,
    console_error, navigate, mbind, M_bind, mret, M_ret,
    with_env, with_users in *;
  red_world.

Ltac branches :=
  repeat (match goal with
          | |- context [match ?x with _ => _ end] => destruct x eqn:?
          | H : context [match ?x with _ => _ end] |- _ => destruct x eqn:?
          end;
          red_world; simplify_eq).

(** When the provider creates the identity [fu] and the store accepts the
    write, [signup] resolves with the session built from the arguments
    (identity [uid fu], role user, status active), the record stored under
    [uid fu], one navigation to /business, nothing logged and [loading]
    false. *)
Theorem signup_resolves (email password : string)
    (businessName website : option string) w fu (e1 e2 e3 : Env) (t : string) :
  createUserWithEmailAndPassword email password (env w) = (inr fu, e1) →
  toISOString_now e1 = (t, e2) →
  setDoc_fault (uid fu) (signup_userData fu businessName website t) e2
  = (None, e3) →
  signup email password businessName website w
  = (inr (),
     mkWorld e3
       (<[uid fu := signup_userData fu businessName website t]> (users w))
       (Some (signup_user fu businessName website))
       false (initializing w) (console w) (history w ++ ["/business"]))
  ∧ identity (Some (signup_user fu businessName website)) = JStr (uid fu)
  ∧ prop (signup_user fu businessName website) "businessName"
    = optional businessName
  ∧ prop (signup_user fu businessName website) "website" = optional website
  ∧ prop (signup_user fu businessName website) "role" = JStr "user"
  ∧ prop (signup_user fu businessName website) "status" = JStr "active".
Proof.
  intros H1 H2 H3. split.
  - exec. rewrite H1; red_world. rewrite H2; red_world. rewrite H3; red_world.
    reflexivity.
  - unfold identity, prop, signup_user. cbn [from_option].
    by simplify_map_eq.
Qed.

(** Whichever awaited call fails, a rejected [signup], [login] or [logout]
    leaves the session, the store, the history and [initializing] as they
    were, has logged the error it rejects with once, and has set [loading]
    to false. *)
Theorem rejected_operation_changes_nothing (a : Action) w (err : Error) :
  is_auth_event a = false →
  (handler a w).1 = inl err →
  user (perform a w) = user w
  ∧ users (perform a w) = users w
  ∧ history (perform a w) = history w
  ∧ initializing (perform a w) = initializing w
  ∧ loading (perform a w) = false
  ∧ ∃ label, console (perform a w) = (console w ++ [(label, err)])%list.
Proof.
  destruct a; cbn [is_auth_event]; intros ? H; [done| | |];
    exec; branches; repeat split; eauto.
Qed.

(** A [signup], [login] or [logout] that resolves has logged nothing, has
    navigated exactly once, to /business or (for [logout]) to /, and has
    set [loading] to false. *)
Theorem resolved_operation_navigates (a : Action) w :
  is_auth_event a = false →
  (handler a w).1 = inr () →
  console (perform a w) = console w
  ∧ loading (perform a w) = false
  ∧ initializing (perform a w) = initializing w
  ∧ history (perform a w)
    = (history w ++ [match a with Logout => "/" | _ => "/business" end])%list.
Proof.
  destruct a; cbn [is_auth_event]; intros ? H; [done| | |];
    exec; branches; repeat split; eauto.
Qed.

(** When the provider accepts the credentials as the identity [fu] and the
    fetch returns the record [userData], [login] resolves with the session
    built from [fu] and [userData], the store untouched, one navigation to
    /business, nothing logged and [loading] false. *)
Theorem login_resolves_with_record (email password : string) w fu
    (e1 e2 : Env) (userData : gmap string JsVal) :
  signInWithEmailAndPassword email password (env w) = (inr fu, e1) →
  getDoc_fault (uid fu) e1 = (None, e2) →
  users w !! uid fu = Some userData →
  login email password w
  = (inr (),
     mkWorld e2 (users w) (Some (user_of_record fu userData))
       false (initializing w) (console w) (history w ++ ["/business"]))
  ∧ identity (Some (user_of_record fu userData)) = JStr (uid fu).
Proof.
  intros H1 H2 H3. split.
  - exec. rewrite H1; red_world. rewrite H2; red_world. rewrite H3; red_world.
    reflexivity.
  - unfold identity, prop, user_of_record. cbn [from_option].
    by simplify_map_eq.
Qed.

(** No handler deletes a record, and the callback, [login] and [logout]
    never replace one: only [signup] can change what is stored under a key
    that already holds a record. *)
Theorem records_persist (a : Action) w (k : string)
    (record : gmap string JsVal) :
  users w !! k = Some record →
  is_Some (users (perform a w) !! k)
  ∧ (match a with Signup _ _ _ _ => False | _ => True end →
     users (perform a w) !! k = Some record).
Proof.
  intros Hk. destruct a; exec; branches; split; try done;
    rewrite ?lookup_insert; try case_decide; subst;
    rewrite ?Hk; try done; try congruence.
Qed.

(** [login] and [logout] never write to the store, and the callback and
    the three operations always leave [loading] false. *)
Theorem login_logout_never_write (a : Action) w :
  loading (perform a w) = false
  ∧ match a with
    | Login _ _ | Logout => users (perform a w) = users w
    | _ => True
    end.
Proof. destruct a; exec; branches; done. Qed.

(** The callback never navigates, and it changes the store under at most
    one key: the identity of the event, and only when no record was stored
    under it, where it puts the default record. *)
Theorem callback_store_frame (ev : option FirebaseUser) w (k : string) :
  history (onAuthStateChanged_callback ev w).2 = history w
  ∧ (users (onAuthStateChanged_callback ev w).2 !! k = users w !! k
     ∨ ∃ fu t,
         ev = Some fu ∧ k = uid fu ∧ users w !! k = None
         ∧ users (onAuthStateChanged_callback ev w).2 !! k
           = Some (newUser fu t)).
Proof.
  destruct ev as [fu|]; exec; branches; split; try done; try (by left).
  destruct (decide (uid fu = k)) as [<-|?].
  - right. do 2 eexists. rewrite lookup_insert_eq. by repeat split.
  - left. by rewrite lookup_insert_ne.
Qed.

(** *** How a handler can change the session and the store *)

Lemma perform_session_cases (a : Action) w :
  (user (perform a w) = user w ∧ users (perform a w) = users w)
  ∨ (user (perform a w) = None ∧ users (perform a w) = users w)
  ∨ (∃ fu userData,
        user (perform a w) = Some (user_of_record fu userData)
        ∧ users (perform a w) = users w
        ∧ users w !! uid fu = Some userData)
  ∨ (∃ fu t,
        user (perform a w) = Some (newUser fu t)
        ∧ users (perform a w) = <[uid fu := newUser fu t]> (users w)
        ∧ users w !! uid fu = None)
  ∨ (∃ fu businessName website t,
        user (perform a w) = Some (signup_user fu businessName website)
        ∧ users (perform a w)
          = <[uid fu := signup_userData fu businessName website t]> (users w)).
Proof.
  destruct a; exec; branches; red_world;
    lazymatch goal with
    | |- (user w = user w ∧ _) ∨ _ => left; split; reflexivity
    | |- (None = user w ∧ _) ∨ _ => right; left; split; reflexivity
    | |- (Some (user_of_record _ _) = user w ∧ _) ∨ _ =>
        do 2 right; left; do 2 eexists;
        split; [reflexivity|split; [reflexivity|eassumption]]
    | |- (Some (newUser _ _) = user w ∧ _) ∨ _ =>
        do 3 right; left; do 2 eexists;
        split; [reflexivity|split; [reflexivity|eassumption]]
    | |- (Some (signup_user _ _ _) = user w ∧ _) ∨ _ =>
        do 4 right; do 4 eexists; split; reflexivity
    end.
Qed.

Lemma perform_initializing (a : Action) w :
  initializing (perform a w) = initializing w && negb (is_auth_event a).
Proof.
  destruct a; exec; branches; cbn; by rewrite ?andb_true_r, ?andb_false_r.
Qed.

Lemma perform_all_snoc (actions : list Action) (a : Action) w :
  perform_all (actions ++ [a]) w = perform a (perform_all actions w).
Proof. unfold perform_all. by rewrite foldl_snoc. Qed.

Lemma perform_all_initializing (actions : list Action) w :
  initializing (perform_all actions w)
  = initializing w && forallb (λ a, negb (is_auth_event a)) actions.
Proof.
  revert w. induction actions as [|a actions IH]; intros w; cbn.
  - by rewrite andb_true_r.
  - fold (perform_all actions (perform a w)).
    rewrite IH, perform_initializing. by rewrite andb_assoc.
Qed.

Lemma js_or_truthy (a b : JsVal) :
  truthy b = true → truthy (js_or a b) = true.
Proof. unfold js_or. by destruct (truthy a) eqn:?. Qed.

Lemma strict_eq_JStr (v : JsVal) (s : string) :
  strict_eq v (JStr s) = true ↔ v = JStr s.
Proof.
  destruct v; cbn; try (split; [discriminate|congruence]).
  rewrite String.eqb_eq. split; congruence.
Qed.

Lemma role_or_user_admin (v : JsVal) :
  strict_eq (js_or v (JStr "user")) (JStr "admin") = true ↔ v = JStr "admin".
Proof.
  rewrite strict_eq_JStr. unfold js_or. split.
  - destruct (truthy v); [done|discriminate].
  - by intros ->.
Qed.

Lemma prop_Some (o : gmap string JsVal) (k : string) (s : string) :
  prop o k = JStr s ↔ o !! k = Some (JStr s).
Proof.
  unfold prop. destruct (o !! k); cbn; split; congruence.
Qed.

Lemma signup_user_fields fu (businessName website : option string) :
  prop (signup_user fu businessName website) "id" = JStr (uid fu)
  ∧ prop (signup_user fu businessName website) "email"
    = nullable (fb_email fu)
  ∧ prop (signup_user fu businessName website) "businessName"
    = optional businessName
  ∧ prop (signup_user fu businessName website) "website" = optional website
  ∧ prop (signup_user fu businessName website) "role" = JStr "user"
  ∧ prop (signup_user fu businessName website) "status" = JStr "active".
Proof. unfold prop, signup_user. by simplify_map_eq. Qed.

Lemma session_backed_step (a : Action) w :
  session_backed w → session_backed (perform a w).
Proof.
  intros Hw u.
  destruct (perform_session_cases a w)
    as [[-> ->]|[[-> _]|[(fu & userData & -> & -> & Hr)
       |[(fu & t & -> & -> & _)|(fu & bn & ws & t & -> & ->)]]]].
  - apply Hw.
  - done.
  - intros [= <-].
    destruct (user_of_record_fields fu userData) as (Hi & _ & _ & _ & Hro & Hs).
    exists (uid fu). rewrite Hi, Hro, Hs, Hr.
    repeat split; eauto using js_or_truthy.
  - intros [= <-].
    destruct (newUser_fields fu t) as (Hi & _ & Hro & Hs & _).
    exists (uid fu). rewrite Hi, Hro, Hs, lookup_insert_eq. by repeat split.
  - intros [= <-].
    destruct (signup_user_fields fu bn ws) as (Hi & _ & _ & _ & Hro & Hs).
    exists (uid fu). rewrite Hi, Hro, Hs, lookup_insert_eq. by repeat split.
Qed.

Lemma admin_backed_step (a : Action) w :
  admin_backed w → admin_backed (perform a w).
Proof.
  unfold admin_backed, isAdmin, identity. intros Hw.
  destruct (perform_session_cases a w)
    as [[-> ->]|[[-> _]|[(fu & userData & -> & -> & Hr)
       |[(fu & t & -> & -> & _)|(fu & bn & ws & t & -> & ->)]]]];
    cbn [from_option].
  - apply Hw.
  - done.
  - destruct (user_of_record_fields fu userData) as (Hi & _ & _ & _ & Hro & _).
    rewrite Hi, Hro, role_or_user_admin, prop_Some. eauto.
  - destruct (newUser_fields fu t) as (_ & _ & -> & _). done.
  - destruct (signup_user_fields fu bn ws) as (_ & _ & _ & _ & -> & _). done.
Qed.

(** *** Invariants of every run from mount *)

(** Whatever events and operations follow the mount, in whatever
    environment, a published session has a string [id] under which the
    store holds a record, and truthy [role] and [status]. *)
Theorem session_always_backed (actions : list Action) (e : Env)
    (db : gmap string (gmap string JsVal)) :
  session_backed (perform_all actions (mount e db)).
Proof.
  induction actions as [|a actions IH] using rev_ind.
  - intros u. done.
  - rewrite perform_all_snoc. by apply session_backed_step.
Qed.

(** Whatever events and operations follow the mount, [isAdmin] is true
    only when the store holds, under the identity of the session, a record
    whose [role] is the string admin: no handler grants the role itself. *)
Theorem admin_only_from_store (actions : list Action) (e : Env)
    (db : gmap string (gmap string JsVal)) :
  admin_backed (perform_all actions (mount e db)).
Proof.
  induction actions as [|a actions IH] using rev_ind.
  - intros H. done.
  - rewrite perform_all_snoc. by apply admin_backed_step.
Qed.

(** The component renders the spinner from the mount until the first
    provider event has been handled, whatever operations are called in
    between, and the provider from then on; what it then provides is the
    session and [loading] of the world. *)
Theorem spinner_until_first_event (actions : list Action) (e : Env)
    (db : gmap string (gmap string JsVal)) :
  (AuthProvider (perform_all actions (mount e db)) = Spinner
   ↔ Forall (λ a, is_auth_event a = false) actions)
  ∧ ∀ value,
      AuthProvider (perform_all actions (mount e db)) = Provider value →
      ctx_user value = user (perform_all actions (mount e db))
      ∧ ctx_loading value = loading (perform_all actions (mount e db))
      ∧ ctx_isAdmin value () = isAdmin (perform_all actions (mount e db)).
Proof.
  unfold AuthProvider. rewrite perform_all_initializing. cbn [mount initializing].
  rewrite andb_true_l. split.
  - rewrite Forall_forall.
    destruct (forallb _ actions) eqn:Hf.
    + split; [|done]. intros _ a Ha.
      rewrite forallb_forall in Hf. apply negb_true_iff, Hf.
      by apply list_elem_of_In.
    + split; [done|]. intros Ha. exfalso.
      assert (forallb (λ a, negb (is_auth_event a)) actions = true);
        [|congruence].
      apply forallb_forall. intros a Hin. apply negb_true_iff, Ha.
      by apply list_elem_of_In.
  - destruct (forallb _ actions); [done|]. by intros value [= <-].
Qed.

(** *** Which awaited call makes an operation reject *)

(** [signup] rejects with [err] exactly when the provider rejects the
    creation with [err] or the store rejects the write of the record with
    [err]; [login] exactly when the provider rejects the credentials or the
    store rejects the fetch (a missing record does not make it reject);
    [logout] exactly when the provider rejects the sign-out. *)
Theorem operation_rejects_iff (email password : string)
    (businessName website : option string) w (err : Error) :
  ((signup email password businessName website w).1 = inl err
   ↔ (createUserWithEmailAndPassword email password (env w)).1 = inl err
     ∨ ∃ fu e1 t e2,
         createUserWithEmailAndPassword email password (env w) = (inr fu, e1)
         ∧ toISOString_now e1 = (t, e2)
         ∧ (setDoc_fault (uid fu)
              (signup_userData fu businessName website t) e2).1 = Some err)
  ∧ ((login email password w).1 = inl err
     ↔ (signInWithEmailAndPassword email password (env w)).1 = inl err
       ∨ ∃ fu e1,
           signInWithEmailAndPassword email password (env w) = (inr fu, e1)
           ∧ (getDoc_fault (uid fu) e1).1 = Some err)
  ∧ ((logout w).1 = inl err ↔ (signOut (env w)).1 = inl err).
Proof.
  split; [|split]; exec.
  - destruct (createUserWithEmailAndPassword _ _ _) as [[err'|fu] e1];
      red_world.
    { split; [intros [= ->]; by left|].
      intros [[= ->]|(? & ? & ? & ? & [=] & _)]; done. }
    destruct (toISOString_now e1) as [t e2] eqn:Ht; red_world.
    destruct (setDoc_fault _ _ _) as [[err'|] e3] eqn:Hs; red_world.
    + split.
      * intros [= ->]. right. exists fu, e1, t, e2. rewrite Hs.
        by repeat split.
      * intros [[=]|(fu' & e1' & t' & e2' & Hc & Ht' & Hs')].
        injection Hc as <- <-. rewrite Ht in Ht'. injection Ht' as <- <-.
        rewrite Hs in Hs'. cbn in Hs'. congruence.
    + split; [done|].
      intros [[=]|(fu' & e1' & t' & e2' & Hc & Ht' & Hs')].
      injection Hc as <- <-. rewrite Ht in Ht'. injection Ht' as <- <-.
      rewrite Hs in Hs'. done.
  - destruct (signInWithEmailAndPassword _ _ _) as [[err'|fu] e1];
      red_world.
    { split; [intros [= ->]; by left|].
      intros [[= ->]|(? & ? & [=] & _)]; done. }
    destruct (getDoc_fault _ _) as [[err'|] e2] eqn:Hg; red_world.
    + split.
      * intros [= ->]. right. exists fu, e1. rewrite Hg. by split.
      * intros [[=]|(fu' & e1' & Hc & Hg')].
        injection Hc as <- <-. rewrite Hg in Hg'. cbn in Hg'. congruence.
    + split.
      * by destruct (users w !! uid fu).
      * intros [[=]|(fu' & e1' & Hc & Hg')].
        injection Hc as <- <-. rewrite Hg in Hg'. done.
  - destruct (signOut _) as [[err'|[]] e1]; red_world; split; congruence.
Qed.

(** *** How the handlers compose *)

Lemma user_of_signup_record fu (businessName website : option string)
    (t : string) :
  user_of_record fu (signup_userData fu businessName website t)
  = signup_user fu businessName website.
Proof.
  unfold user_of_record.
  destruct (signup_userData_fields fu businessName website t)
    as (-> & -> & -> & ->).
  reflexivity.
Qed.

(** After a [signup] that resolved, the provider event for the identity it
    created, when its fetch goes through, publishes the very session that
    [signup] published and leaves the store as it is. *)
Theorem event_after_signup_keeps_session (email password : string)
    (businessName website : option string) w fu (e1 e2 e3 e4 : Env)
    (t : string) :
  createUserWithEmailAndPassword email password (env w) = (inr fu, e1) →
  toISOString_now e1 = (t, e2) →
  setDoc_fault (uid fu) (signup_userData fu businessName website t) e2
  = (None, e3) →
  getDoc_fault (uid fu) e3 = (None, e4) →
  let w1 := (signup email password businessName website w).2 in
  let w2 := (onAuthStateChanged_callback (Some fu) w1).2 in
  user w1 = Some (signup_user fu businessName website)
  ∧ user w2 = user w1
  ∧ users w2 = users w1.
Proof.
  intros H1 H2 H3 H4 w1 w2. subst w2 w1. exec.
  rewrite H1; red_world. rewrite H2; red_world. rewrite H3; red_world.
  rewrite H4; red_world. rewrite lookup_insert_eq; red_world.
  by rewrite user_of_signup_record.
Qed.

(** Handling the same provider event twice, for an identity whose record
    exists and with both fetches going through, publishes the same session
    both times and never touches the store. *)
Theorem event_idempotent_on_existing_record fu w (e1 e2 : Env)
    (userData : gmap string JsVal) :
  getDoc_fault (uid fu) (env w) = (None, e1) →
  users w !! uid fu = Some userData →
  getDoc_fault (uid fu) e1 = (None, e2) →
  let w1 := (onAuthStateChanged_callback (Some fu) w).2 in
  let w2 := (onAuthStateChanged_callback (Some fu) w1).2 in
  user w2 = user w1 ∧ users w2 = users w ∧ users w1 = users w.
Proof.
  intros H1 H2 H3 w1 w2. subst w2 w1. exec.
  rewrite H1; red_world. rewrite H2; red_world.
  rewrite H3; red_world. rewrite H2; red_world. done.
Qed.

(** The first event for an identity without a record publishes the default
    record itself, [createdAt] included; the next event for that identity
    rebuilds the session from the stored record: identity, email, role and
    status are the same, but [createdAt] is gone, so the two sessions are
    different objects. *)
Theorem event_after_first_event_drops_createdAt fu w (e1 e2 e3 e4 : Env)
    (t : string) :
  getDoc_fault (uid fu) (env w) = (None, e1) →
  users w !! uid fu = None →
  toISOString_now e1 = (t, e2) →
  setDoc_fault (uid fu) (newUser fu t) e2 = (None, e3) →
  getDoc_fault (uid fu) e3 = (None, e4) →
  let w1 := (onAuthStateChanged_callback (Some fu) w).2 in
  let w2 := (onAuthStateChanged_callback (Some fu) w1).2 in
  ∃ first second,
    user w1 = Some first ∧ user w2 = Some second
    ∧ users w2 = users w1
    ∧ prop second "id" = prop first "id"
    ∧ prop second "email" = prop first "email"
    ∧ prop second "role" = prop first "role"
    ∧ prop second "status" = prop first "status"
    ∧ prop first "createdAt" = JStr t
    ∧ prop second "createdAt" = JUndefined
    ∧ first ≠ second.
Proof.
  intros H1 H2 H3 H4 H5 w1 w2.
  exists (newUser fu t), (user_of_record fu (newUser fu t)).
  assert (Hc : prop (user_of_record fu (newUser fu t)) "createdAt" = JUndefined).
  { unfold prop, user_of_record. by simplify_map_eq. }
  destruct (newUser_fields fu t) as (Hi & He & Hr & Hs & Ht).
  destruct (user_of_record_fields fu (newUser fu t))
    as (Hi' & He' & _ & _ & Hr' & Hs').
  rewrite Hi, He, Hr, Hs, Ht, Hi', He', Hr', Hs', Hc.
  assert (newUser fu t ≠ user_of_record fu (newUser fu t)).
  { intros Heq. rewrite <- Heq in Hc. congruence. }
  subst w2 w1. exec.
  rewrite H1; red_world. rewrite H2; red_world. rewrite H3; red_world.
  rewrite H4; red_world. rewrite H5; red_world.
  rewrite lookup_insert_eq; red_world. done.
Qed.

(** A [signup] whose credential is created but whose write is rejected
    leaves no record; if the provider event for the new identity is then
    handled with the store working, the record created and the session
    published are the default ones: the business name and website given to
    [signup] are in neither. *)
Theorem rejected_signup_write_loses_profile (email password : string)
    (businessName website : option string) w fu (err : Error)
    (e1 e2 e3 e4 e5 e6 : Env) (t t' : string) :
  createUserWithEmailAndPassword email password (env w) = (inr fu, e1) →
  toISOString_now e1 = (t, e2) →
  setDoc_fault (uid fu) (signup_userData fu businessName website t) e2
  = (Some err, e3) →
  users w !! uid fu = None →
  getDoc_fault (uid fu) e3 = (None, e4) →
  toISOString_now e4 = (t', e5) →
  setDoc_fault (uid fu) (newUser fu t') e5 = (None, e6) →
  let w1 := (signup email password businessName website w).2 in
  let w2 := (onAuthStateChanged_callback (Some fu) w1).2 in
  (signup email password businessName website w).1 = inl err
  ∧ users w1 !! uid fu = None
  ∧ users w2 !! uid fu = Some (newUser fu t')
  ∧ user w2 = Some (newUser fu t')
  ∧ prop (newUser fu t') "businessName" = JUndefined
  ∧ prop (newUser fu t') "website" = JUndefined.
Proof.
  intros H1 H2 H3 H4 H5 H6 H7 w1 w2.
  assert (prop (newUser fu t') "businessName" = JUndefined
          ∧ prop (newUser fu t') "website" = JUndefined) as [-> ->].
  { unfold prop, newUser. by simplify_map_eq. }
  subst w2 w1. exec.
  rewrite H1; red_world. rewrite H2; red_world. rewrite H3; red_world.
  rewrite H5; red_world. rewrite H4; red_world. rewrite H6; red_world.
  rewrite H7; red_world. rewrite lookup_insert_eq. done.
Qed.

(** Two [login] calls in a row that the provider accepts as the same
    identity, with the record found both times, publish the same session
    both times and leave the store untouched; each call navigates once. *)
Theorem login_twice_same_session (email password : string) w fu
    (e1 e2 e3 e4 : Env) (userData : gmap string JsVal) :
  signInWithEmailAndPassword email password (env w) = (inr fu, e1) →
  getDoc_fault (uid fu) e1 = (None, e2) →
  users w !! uid fu = Some userData →
  signInWithEmailAndPassword email password e2 = (inr fu, e3) →
  getDoc_fault (uid fu) e3 = (None, e4) →
  let w1 := (login email password w).2 in
  let w2 := (login email password w1).2 in
  user w2 = user w1
  ∧ users w2 = users w
  ∧ history w2 = (history w ++ ["/business"; "/business"])%list.
Proof.
  intros H1 H2 H3 H4 H5 w1 w2. subst w2 w1. exec.
  rewrite H1; red_world. rewrite H2; red_world. rewrite H3; red_world.
  rewrite H4; red_world. rewrite H5; red_world. rewrite H3; red_world.
  by rewrite <- app_assoc.
Qed.

(** *** isAdmin *)

(** When an event or a [login] finds the record of the identity, [isAdmin]
    is afterwards true exactly when the [role] stored in that record is the
    string admin; a record without a role, or with any other value, gives
    false. *)
Theorem admin_iff_stored_role (email password : string) w fu (e0 e1 : Env)
    (userData : gmap string JsVal) :
  users w !! uid fu = Some userData →
  (getDoc_fault (uid fu) (env w) = (None, e1) →
   (isAdmin (onAuthStateChanged_callback (Some fu) w).2 = true
    ↔ userData !! "role" = Some (JStr "admin")))
  ∧ (signInWithEmailAndPassword email password (env w) = (inr fu, e0) →
     getDoc_fault (uid fu) e0 = (None, e1) →
     (isAdmin (login email password w).2 = true
      ↔ userData !! "role" = Some (JStr "admin"))).
Proof.
  intros Hr.
  destruct (user_of_record_fields fu userData) as (_ & _ & _ & _ & Hro & _).
  split.
  - intros H1. unfold isAdmin. exec.
    rewrite H1; red_world. rewrite Hr; red_world. cbn [from_option].
    by rewrite Hro, role_or_user_admin, prop_Some.
  - intros H0 H1. unfold isAdmin. exec.
    rewrite H0; red_world. rewrite H1; red_world. rewrite Hr; red_world.
    cbn [from_option]. by rewrite Hro, role_or_user_admin, prop_Some.
Qed.

(** An identity that has no record yet is never an administrator after its
    event, whatever the store then does, and neither is the identity of a
    [signup] that resolved. *)
Theorem new_identity_never_admin :
  (∀ fu w, users w !! uid fu = None →
           isAdmin (onAuthStateChanged_callback (Some fu) w).2 = false)
  ∧ (∀ email password businessName website w,
       (signup email password businessName website w).1 = inr () →
       isAdmin (signup email password businessName website w).2 = false).
Proof.
  split.
  - intros fu w Hn. unfold isAdmin. exec. rewrite Hn. branches; done.
  - intros email password bn ws w. unfold isAdmin. exec. branches; done.
Qed.

End Handlers_properties.

(** ** Runs of the handlers on the concrete environments *)

Lemma signup_resolves_witness :
  (signup "c@d.com" "pw123456" (Some "Acme") (Some "https://acme.example")
     (mount Mock.online ∅)).1 = inr ()
  ∧ history (signup "c@d.com" "pw123456" (Some "Acme")
               (Some "https://acme.example") (mount Mock.online ∅)).2
    = ["/business"]
  ∧ loading (signup "c@d.com" "pw123456" (Some "Acme")
               (Some "https://acme.example") (mount Mock.online ∅)).2
    = false.
Proof.
  pose proof (signup_resolves "c@d.com" "pw123456" (Some "Acme")
                (Some "https://acme.example") (mount Mock.online ∅)
                {| uid := "u2"; fb_email := Some "c@d.com" |}
                Mock.online Mock.online Mock.online
                "2024-01-01T00:00:00.000Z" eq_refl eq_refl eq_refl) as [H _].
  rewrite H. repeat split.
Defined.

Lemma rejected_operation_changes_nothing_witness :
  let w := mount Mock.reads_down ∅ in
  (login "a@b.com" "hunter2" w).1 = inl (FirebaseError "unavailable")
  ∧ user (perform (Login "a@b.com" "hunter2") w) = None
  ∧ history (perform (Login "a@b.com" "hunter2") w) = []
  ∧ loading (perform (Login "a@b.com" "hunter2") w) = false.
Proof.
  split; [reflexivity|].
  pose proof (rejected_operation_changes_nothing (Login "a@b.com" "hunter2")
                (mount Mock.reads_down ∅) (FirebaseError "unavailable")
                eq_refl eq_refl) as (Hu & _ & Hh & _ & Hl & _).
  split; [exact Hu|]. split; [exact Hh|exact Hl].
Defined.

Lemma resolved_operation_navigates_witness :
  (logout Mock.admin_signed_in).1 = inr ()
  ∧ history (perform Logout Mock.admin_signed_in) = ["/"]
  ∧ console (perform Logout Mock.admin_signed_in) = [].
Proof.
  split; [reflexivity|].
  pose proof (resolved_operation_navigates Logout Mock.admin_signed_in
                eq_refl eq_refl) as (Hc & _ & _ & Hh).
  split; [exact Hh|exact Hc].
Defined.

Lemma login_resolves_with_record_witness :
  let w := mount Mock.online (<["u1" := Mock.admin_record]> ∅) in
  (login "a@b.com" "hunter2" w).1 = inr ()
  ∧ user (login "a@b.com" "hunter2" w).2
    = Some (user_of_record Mock.alice Mock.admin_record)
  ∧ history (login "a@b.com" "hunter2" w).2 = ["/business"].
Proof.
  pose proof (login_resolves_with_record "a@b.com" "hunter2"
                (mount Mock.online (<["u1" := Mock.admin_record]> ∅))
                Mock.alice Mock.online Mock.online Mock.admin_record
                eq_refl eq_refl eq_refl) as [H _].
  cbv zeta. rewrite H. repeat split.
Defined.

Lemma records_persist_witness :
  let w := mount Mock.online (<["u1" := Mock.admin_record]> ∅) in
  users w !! "u1" = Some Mock.admin_record
  ∧ users (perform (AuthStateChanged (Some Mock.alice)) w) !! "u1"
    = Some Mock.admin_record.
Proof.
  split; [reflexivity|].
  pose proof (records_persist (AuthStateChanged (Some Mock.alice))
                (mount Mock.online (<["u1" := Mock.admin_record]> ∅))
                "u1" Mock.admin_record eq_refl) as [_ H].
  exact (H I).
Defined.

Lemma session_always_backed_witness :
  ∃ id,
    prop (user_of_record Mock.alice Mock.admin_record) "id" = JStr id
    ∧ is_Some (users (perform_all [AuthStateChanged (Some Mock.alice); Logout;
                                   Login "a@b.com" "hunter2"]
                        (mount Mock.online (<["u1" := Mock.admin_record]> ∅)))
               !! id).
Proof.
  pose proof (session_always_backed
                [AuthStateChanged (Some Mock.alice); Logout;
                 Login "a@b.com" "hunter2"]
                Mock.online (<["u1" := Mock.admin_record]> ∅)
                (user_of_record Mock.alice Mock.admin_record) eq_refl)
    as (id & Hi & Hs & _).
  exists id. split; [exact Hi|exact Hs].
Defined.

Lemma admin_only_from_store_witness :
  ∃ id record,
    identity (user Mock.admin_signed_in) = JStr id
    ∧ users Mock.admin_signed_in !! id = Some record
    ∧ record !! "role" = Some (JStr "admin").
Proof.
  exact (admin_only_from_store [AuthStateChanged (Some Mock.alice)]
           Mock.online (<["u1" := Mock.admin_record]> ∅) eq_refl).
Defined.

Lemma spinner_until_first_event_witness :
  AuthProvider (perform_all [Login "a@b.com" "wrong"; Logout]
                  (mount Mock.online ∅)) = Spinner.
Proof.
  destruct (spinner_until_first_event [Login "a@b.com" "wrong"; Logout]
              Mock.online ∅) as [[_ H] _].
  apply H. repeat constructor.
Defined.

Lemma operation_rejects_iff_witness :
  (login "a@b.com" "hunter2" (mount Mock.reads_down ∅)).1
  = inl (FirebaseError "unavailable").
Proof.
  destruct (operation_rejects_iff "a@b.com" "hunter2" None None
              (mount Mock.reads_down ∅) (FirebaseError "unavailable"))
    as (_ & [_ H] & _).
  apply H. right. exists Mock.alice, Mock.reads_down. split; reflexivity.
Defined.

Lemma event_after_signup_keeps_session_witness :
  let w1 := (signup "c@d.com" "pw123456" (Some "Acme")
               (Some "https://acme.example") (mount Mock.online ∅)).2 in
  let w2 := (onAuthStateChanged_callback
               (Some {| uid := "u2"; fb_email := Some "c@d.com" |}) w1).2 in
  user w2 = user w1 ∧ users w2 = users w1.
Proof.
  pose proof (event_after_signup_keeps_session "c@d.com" "pw123456"
                (Some "Acme") (Some "https://acme.example")
                (mount Mock.online ∅)
                {| uid := "u2"; fb_email := Some "c@d.com" |}
                Mock.online Mock.online Mock.online Mock.online
                "2024-01-01T00:00:00.000Z"
                eq_refl eq_refl eq_refl eq_refl) as (_ & Hu & Hs).
  split; [exact Hu|exact Hs].
Defined.

Lemma event_idempotent_on_existing_record_witness :
  let w := mount Mock.online (<["u1" := Mock.partial_record]> ∅) in
  let w1 := (onAuthStateChanged_callback (Some Mock.alice) w).2 in
  let w2 := (onAuthStateChanged_callback (Some Mock.alice) w1).2 in
  user w2 = user w1 ∧ users w2 = users w.
Proof.
  pose proof (event_idempotent_on_existing_record Mock.alice
                (mount Mock.online (<["u1" := Mock.partial_record]> ∅))
                Mock.online Mock.online Mock.partial_record
                eq_refl eq_refl eq_refl) as (Hu & Hs & _).
  split; [exact Hu|exact Hs].
Defined.

Lemma event_after_first_event_drops_createdAt_witness :
  let w1 := (onAuthStateChanged_callback (Some Mock.alice)
               (mount Mock.online ∅)).2 in
  let w2 := (onAuthStateChanged_callback (Some Mock.alice) w1).2 in
  ∃ first second,
    user w1 = Some first ∧ user w2 = Some second
    ∧ prop first "createdAt" = JStr "2024-01-01T00:00:00.000Z"
    ∧ prop second "createdAt" = JUndefined.
Proof.
  pose proof (event_after_first_event_drops_createdAt Mock.alice
                (mount Mock.online ∅)
                Mock.online Mock.online Mock.online Mock.online
                "2024-01-01T00:00:00.000Z"
                eq_refl eq_refl eq_refl eq_refl eq_refl)
    as (first & second & H1 & H2 & _ & _ & _ & _ & _ & Hc1 & Hc2 & _).
  exists first, second. repeat split; assumption.
Defined.

Lemma rejected_signup_write_loses_profile_witness :
  let w := mount Strict.noon ∅ in
  let w1 := (signup "c@d.com" "pw123456" (Some "Acme") None w).2 in
  let w2 := (onAuthStateChanged_callback (Some Strict.bob) w1).2 in
  (signup "c@d.com" "pw123456" (Some "Acme") None w).1
  = inl (FirebaseError "invalid-argument")
  ∧ users w1 !! "u2" = None
  ∧ users w2 !! "u2" = Some (newUser Strict.bob "2024-01-01T12:00:00.000Z")
  ∧ prop (newUser Strict.bob "2024-01-01T12:00:00.000Z") "businessName"
    = JUndefined.
Proof.
  pose proof (rejected_signup_write_loses_profile "c@d.com" "pw123456"
                (Some "Acme") None (mount Strict.noon ∅) Strict.bob
                (FirebaseError "invalid-argument")
                Strict.noon Strict.noon Strict.noon Strict.noon Strict.noon
                Strict.noon "2024-01-01T12:00:00.000Z"
                "2024-01-01T12:00:00.000Z"
                eq_refl eq_refl eq_refl eq_refl eq_refl eq_refl eq_refl)
    as (Hr & H1 & H2 & _ & Hb & _).
  repeat split; assumption.
Defined.

Lemma admin_iff_stored_role_witness :
  let w := mount Mock.online (<["u1" := Mock.admin_record]> ∅) in
  isAdmin (onAuthStateChanged_callback (Some Mock.alice) w).2 = true
  ∧ isAdmin (login "a@b.com" "hunter2" w).2 = true.
Proof.
  pose proof (admin_iff_stored_role "a@b.com" "hunter2"
                (mount Mock.online (<["u1" := Mock.admin_record]> ∅))
                Mock.alice Mock.online Mock.online Mock.admin_record
                eq_refl) as [Hc Hl].
  split.
  - apply (Hc eq_refl). reflexivity.
  - apply (Hl eq_refl eq_refl). reflexivity.
Defined.

Lemma new_identity_never_admin_witness :
  isAdmin (onAuthStateChanged_callback (Some Mock.alice)
             (mount Mock.online ∅)).2 = false
  ∧ isAdmin (signup "c@d.com" "pw123456" (Some "Acme")
               (Some "https://acme.example") (mount Mock.online ∅)).2
    = false.
Proof.
  destruct (new_identity_never_admin (Env := Mock.Env)) as [Hc Hs].
  split.
  - apply Hc. reflexivity.
  - apply Hs. reflexivity.
Defined.

Lemma login_twice_same_session_witness :
  let w := mount Mock.online (<["u1" := Mock.partial_record]> ∅) in
  let w1 := (login "a@b.com" "hunter2" w).2 in
  let w2 := (login "a@b.com" "hunter2" w1).2 in
  user w2 = user w1 ∧ history w2 = ["/business"; "/business"].
Proof.
  pose proof (login_twice_same_session "a@b.com" "hunter2"
                (mount Mock.online (<["u1" := Mock.partial_record]> ∅))
                Mock.alice Mock.online Mock.online Mock.online Mock.online
                Mock.partial_record
                eq_refl eq_refl eq_refl eq_refl eq_refl) as (Hu & _ & Hh).
  split; [exact Hu|exact Hh].
Defined.
